(** * graph_pearl/policies.py: Graph_TanhGaussianPolicy and MakeDeterministic

    Shallow embedding of the policy head.  Tensors are modelled as
    two-dimensional arrays (rows of the batch, entries along the last
    dimension) of real numbers.  The graph encoder (GraphTransformer), the
    random number generator and the tensor exceptions are supplied by the
    [Framework] interface: the policy only calls them.

    Effects are threaded through a small state-and-error monad: the state
    holds the policy object, the generator state, the autograd mode and the
    autograd tape (the operations recorded for backpropagation).  As with a
    Python exception, the state reached when an error is raised is kept. *)

From Stdlib Require Import Reals Lra Lia String List.
Import ListNotations.
Open Scope R_scope.

(** Result of a computation that may raise. *)
Inductive Result (E A : Type) : Type :=
| Ok (a : A)
| Err (e : E).
Arguments Ok {E A} a.
Arguments Err {E A} e.

(** A tensor: rows of a batch, each a list of entries along dim=-1. *)
Definition Row := list R.
Definition Tensor := list Row.

(** [Node] kinds of graph_utils used to name the GraphTransformer inputs. *)
Inductive Node := STATE_IN | LATENT_IN.

(** Operations that autograd records when gradient mode is on. *)
Inductive Op :=
| OpModule | OpSplit | OpClamp | OpExp | OpTanh | OpRSample | OpLogProb | OpSum.

(** The framework the policy is written against: torch, torch_geometric,
    the GraphTransformer of graph_modules and TanhNormal.log_prob.  Their
    code is not part of this file; the policy only calls them. *)
Class Framework := {
  Graph : Type;                (* gtorch.data.HeteroData *)
  GTModule : Type;             (* a GraphTransformer with its parameters *)
  Gen : Type;                  (* torch's random generator state *)
  Exc : Type;                  (* exceptions raised by the framework *)
  GraphTransformer : list (Node * nat) -> nat -> nat -> nat -> nat -> GTModule;
  module_apply : GTModule -> Graph -> Result Exc Tensor;   (* self.module(graph) *)
  randn_like : Tensor -> Gen -> Tensor * Gen;              (* standard normal draws *)
  tn_log_prob : Tensor -> Tensor -> Tensor -> Tensor -> Tensor;
    (* TanhNormal(mean, std).log_prob(value, pre_tanh_value), kept abstract *)
  IndexError : Exc             (* numpy's IndexError *)
}.

Definition LOG_SIG_MAX : R := 2.
Definition LOG_SIG_MIN : R := -20.

(** ** Elementwise tensor operations *)

Fixpoint zipWith {A B C : Type} (f : A -> B -> C) (l1 : list A) (l2 : list B) : list C :=
  match l1, l2 with
  | a :: l1', b :: l2' => f a b :: zipWith f l1' l2'
  | _, _ => []
  end.

Definition emap (f : R -> R) (t : Tensor) : Tensor := map (map f) t.
Definition ezip (f : R -> R -> R) (a b : Tensor) : Tensor := zipWith (zipWith f) a b.

(** torch.clamp(x, min, max) = min(max(x, min), max) *)
Definition clamp (lo hi : R) (x : R) : R := Rmin (Rmax x lo) hi.

(** torch.tensor_split(x, 2, dim=-1) on one row: the first
    [n mod 2] sections get one extra element. *)
Definition split_point (n : nat) : nat := (n / 2 + n mod 2)%nat.
Definition split_row (row : Row) : Row * Row :=
  (firstn (split_point (length row)) row, skipn (split_point (length row)) row).
Definition tensor_split2 (t : Tensor) : Tensor * Tensor :=
  (map (fun r => fst (split_row r)) t, map (fun r => snd (split_row r)) t).

(** x.sum(dim=-1, keepdim=True) *)
Definition sum_keepdim (t : Tensor) : Tensor := map (fun r => [fold_right Rplus 0 r]) t.

(** rlkit's np_ify: the data of the tensor as a numpy array. *)
Definition np_ify (t : Tensor) : Tensor := t.

(** ** State and error monad *)

Definition M {F : Framework} (S A : Type) : Type := S -> Result Exc A * S.

Definition ret {F : Framework} {S A : Type} (a : A) : M S A := fun s => (Ok a, s).

Definition bind {F : Framework} {S A B : Type} (m : M S A) (k : A -> M S B) : M S B :=
  fun s => match m s with
           | (Ok a, s') => k a s'
           | (Err e, s') => (Err e, s')
           end.

Definition lift {F : Framework} {S A : Type} (r : Result Exc A) : M S A := fun s => (r, s).

Notation "x <- m ;; k" := (bind m (fun x => k))
  (at level 61, m at next level, right associativity).
Notation "' p <- m ;; k" := (bind m (fun x => match x with p => k end))
  (at level 61, p pattern, m at next level, right associativity).

Section Policies.
Context {F : Framework}.

Record Graph_TanhGaussianPolicy := {
  inner_node_dim : nat;
  inner_node_edges : nat;
  conv_iterations : nat;
  state_dim : nat;
  latent_dim : nat;
  action_dim : nat;
  module : GTModule
}.

(** Graph_TanhGaussianPolicy.__init__ *)
Definition Graph_TanhGaussianPolicy_init (inner_node_dim inner_node_edges conv_iterations
    state_dim latent_dim action_dim : nat) : Graph_TanhGaussianPolicy :=
  {| inner_node_dim := inner_node_dim;
     inner_node_edges := inner_node_edges;
     conv_iterations := conv_iterations;
     state_dim := state_dim;
     latent_dim := latent_dim;
     action_dim := action_dim;
     module := GraphTransformer [(STATE_IN, state_dim); (LATENT_IN, latent_dim)]
                 inner_node_dim inner_node_edges (2 * action_dim) conv_iterations |}.

(** The program state: the policy object, the generator, the autograd mode
    and the autograd tape. *)
Record St := {
  policy : Graph_TanhGaussianPolicy;
  gen : Gen;
  grad_enabled : bool;
  tape : list Op
}.

Definition set_gen (g : Gen) (s : St) : St :=
  {| policy := policy s; gen := g; grad_enabled := grad_enabled s; tape := tape s |}.
Definition set_grad (b : bool) (s : St) : St :=
  {| policy := policy s; gen := gen s; grad_enabled := b; tape := tape s |}.
Definition set_tape (t : list Op) (s : St) : St :=
  {| policy := policy s; gen := gen s; grad_enabled := grad_enabled s; tape := t |}.

Definition get_self : M St Graph_TanhGaussianPolicy := fun s => (Ok (policy s), s).

(** A framework operation: its result, recorded on the tape when
    gradient mode is on. *)
Definition traced {A : Type} (o : Op) (r : Result Exc A) : M St A :=
  fun s => match r with
           | Ok a => (Ok a, if grad_enabled s then set_tape (o :: tape s) s else s)
           | Err e => (Err e, s)
           end.

Definition op {A : Type} (o : Op) (a : A) : M St A := traced o (Ok a).

(** torch.randn_like(t): draws from the generator. *)
Definition randn_like_m (t : Tensor) : M St Tensor :=
  fun s => let (eps, g') := randn_like t (gen s) in (Ok eps, set_gen g' s).

(** torch.no_grad: gradient mode off during the call, restored afterwards
    (also when the call raises). *)
Definition no_grad {A : Type} (m : M St A) : M St A :=
  fun s => let (r, s') := m (set_grad false s) in (r, set_grad (grad_enabled s) s').

(** ** TanhNormal *)

Record TanhNormal := { normal_mean : Tensor; normal_std : Tensor }.

(** The pre-tanh value mean + std * eps for standard normal draws eps.
    The three tensors have the same shape when the module output rows have
    even length (2 * action_dim, as __init__ builds it); odd widths, where
    torch would broadcast or raise, are outside this model. *)
Definition gaussian_draw (d : TanhNormal) (eps : Tensor) : Tensor :=
  ezip Rplus (normal_mean d) (ezip Rmult (normal_std d) eps).

(** Modelled from the spec: TanhNormal.sample of rlkit.torch.distributions
    (not under src/), a tanh-squashed Gaussian.  It draws
    z = mean + std * eps with eps standard normal, detached from the
    autograd graph, and returns (tanh z, z). *)
Definition TanhNormal_sample (d : TanhNormal) : M St (Tensor * Tensor) :=
  eps <- randn_like_m (normal_mean d) ;;
  let z := gaussian_draw d eps in
  ret (emap tanh z, z).

(** Modelled from the spec: TanhNormal.rsample of rlkit.torch.distributions
    (not under src/), the reparameterized sampler.  It draws the same
    z = mean + std * eps but keeps z in the autograd graph, and returns
    (tanh z, z). *)
Definition TanhNormal_rsample (d : TanhNormal) : M St (Tensor * Tensor) :=
  eps <- randn_like_m (normal_mean d) ;;
  z <- op OpRSample (gaussian_draw d eps) ;;
  ret (emap tanh z, z).

Definition TanhNormal_log_prob (d : TanhNormal) (value pre_tanh_value : Tensor) : Tensor :=
  tn_log_prob (normal_mean d) (normal_std d) value pre_tanh_value.

(** ** Graph_TanhGaussianPolicy.forward *)

(** The 8-tuple returned by forward; [None] fields are [option]s. *)
Record ForwardOut := {
  out_action : Tensor;
  out_mean : Tensor;
  out_log_std : Tensor;
  out_log_prob : option Tensor;
  out_expected_log_prob : option Tensor;
  out_std : Tensor;
  out_mean_action_log_prob : option Tensor;
  out_pre_tanh_value : option Tensor
}.

Definition forward (graph : Graph) (reparameterize deterministic return_log_prob : bool)
    : M St ForwardOut :=
  self <- get_self ;;
  out <- traced OpModule (module_apply (module self) graph) ;;
  '(mean, log_std) <- op OpSplit (tensor_split2 out) ;;
  log_std <- op OpClamp (emap (clamp LOG_SIG_MIN LOG_SIG_MAX) log_std) ;;
  std <- op OpExp (emap exp log_std) ;;
  let log_prob := None in
  let expected_log_prob := None in
  let mean_action_log_prob := None in
  let pre_tanh_value := None in
  if deterministic then
    action <- op OpTanh (emap tanh mean) ;;
    ret {| out_action := action; out_mean := mean; out_log_std := log_std;
           out_log_prob := log_prob; out_expected_log_prob := expected_log_prob;
           out_std := std; out_mean_action_log_prob := mean_action_log_prob;
           out_pre_tanh_value := pre_tanh_value |}
  else
    let tanh_normal := {| normal_mean := mean; normal_std := std |} in
    if return_log_prob then
      '(action, pre_tanh_value) <-
        (if reparameterize then TanhNormal_rsample tanh_normal
         else TanhNormal_sample tanh_normal) ;;
      log_prob <- op OpLogProb (TanhNormal_log_prob tanh_normal action pre_tanh_value) ;;
      log_prob <- op OpSum (sum_keepdim log_prob) ;;
      ret {| out_action := action; out_mean := mean; out_log_std := log_std;
             out_log_prob := Some log_prob; out_expected_log_prob := expected_log_prob;
             out_std := std; out_mean_action_log_prob := mean_action_log_prob;
             out_pre_tanh_value := Some pre_tanh_value |}
    else
      action <-
        (if reparameterize then (p <- TanhNormal_rsample tanh_normal ;; ret (fst p))
         else (p <- TanhNormal_sample tanh_normal ;; ret (fst p))) ;;
      ret {| out_action := action; out_mean := mean; out_log_std := log_std;
             out_log_prob := log_prob; out_expected_log_prob := expected_log_prob;
             out_std := std; out_mean_action_log_prob := mean_action_log_prob;
             out_pre_tanh_value := pre_tanh_value |}.

(** ** get_actions and get_action *)

(** get_actions, decorated with @torch.no_grad() *)
Definition get_actions (graph : Graph) (deterministic : bool) : M St Tensor :=
  no_grad (outputs <- forward graph false deterministic false ;;
           ret (np_ify (out_action outputs))).

(** The info dictionary returned next to an action. *)
Definition Info := list (string * R).

(** actions[0, :] on a numpy array: IndexError when there is no row. *)
Definition index_row0 (actions : Tensor) : Result Exc Row :=
  match actions with
  | row :: _ => Ok row
  | [] => Err IndexError
  end.

Definition get_action (graph : Graph) (deterministic : bool) : M St (Row * Info) :=
  actions <- get_actions graph deterministic ;;
  row <- lift (index_row0 actions) ;;
  ret (row, []).

(** ** MakeDeterministic *)

(** The bound methods of a stochastic policy object. *)
Record PolicyMethods (S Obs A As : Type) := {
  pm_get_action : Obs -> bool -> M S (A * Info);
  pm_get_actions : Obs -> bool -> M S As
}.
Arguments pm_get_action {S Obs A As} p _ _.
Arguments pm_get_actions {S Obs A As} p _ _.

Definition Graph_TanhGaussianPolicy_methods : PolicyMethods St Graph Row Tensor :=
  {| pm_get_action := get_action; pm_get_actions := get_actions |}.

Record MakeDeterministic (S Obs A As : Type) := {
  stochastic_policy : PolicyMethods S Obs A As
}.
Arguments stochastic_policy {S Obs A As} m.

Definition MakeDeterministic_init {S Obs A As : Type} (p : PolicyMethods S Obs A As)
    : MakeDeterministic S Obs A As :=
  {| stochastic_policy := p |}.

Definition MakeDeterministic_get_action {S Obs A As : Type}
    (self : MakeDeterministic S Obs A As) (observation : Obs) : M S (A * Info) :=
  pm_get_action (stochastic_policy self) observation true.

Definition MakeDeterministic_get_actions {S Obs A As : Type}
    (self : MakeDeterministic S Obs A As) (observations : Obs) : M S As :=
  pm_get_actions (stochastic_policy self) observations true.

(** ** What forward computes from the module output *)

Definition mean_of (out : Tensor) : Tensor := fst (tensor_split2 out).
Definition log_std_of (out : Tensor) : Tensor :=
  emap (clamp LOG_SIG_MIN LOG_SIG_MAX) (snd (tensor_split2 out)).
Definition std_of (out : Tensor) : Tensor := emap exp (log_std_of out).
Definition dist_of (out : Tensor) : TanhNormal :=
  {| normal_mean := mean_of out; normal_std := std_of out |}.

(** The tuple forward returns for module output [out] and standard normal
    draws [eps], by branch. *)
Definition forward_result (out eps : Tensor) (deterministic return_log_prob : bool)
    : ForwardOut :=
  let z := gaussian_draw (dist_of out) eps in
  if deterministic then
    {| out_action := emap tanh (mean_of out); out_mean := mean_of out;
       out_log_std := log_std_of out; out_log_prob := None;
       out_expected_log_prob := None; out_std := std_of out;
       out_mean_action_log_prob := None; out_pre_tanh_value := None |}
  else if return_log_prob then
    {| out_action := emap tanh z; out_mean := mean_of out;
       out_log_std := log_std_of out;
       out_log_prob := Some (sum_keepdim (TanhNormal_log_prob (dist_of out) (emap tanh z) z));
       out_expected_log_prob := None; out_std := std_of out;
       out_mean_action_log_prob := None; out_pre_tanh_value := Some z |}
  else
    {| out_action := emap tanh z; out_mean := mean_of out;
       out_log_std := log_std_of out; out_log_prob := None;
       out_expected_log_prob := None; out_std := std_of out;
       out_mean_action_log_prob := None; out_pre_tanh_value := None |}.

End Policies.

Arguments pm_get_action {F S Obs A As} p _ _.
Arguments pm_get_actions {F S Obs A As} p _ _.
Arguments stochastic_policy {F S Obs A As} m.

(** ** A concrete framework, to run the policy on small inputs

    An encoder that outputs [[0; 1]] for graph 0, no row for graph 1 and
    [[0; 1; 2]] otherwise, a counter as generator state and zero noise. *)
#[local] Instance toy_framework : Framework := {|
  Graph := nat;
  GTModule := unit;
  Gen := nat;
  Exc := unit;
  GraphTransformer := fun _ _ _ _ _ => tt;
  module_apply := fun _ g => match g with
                             | O => Ok [[0; 1]]
                             | 1%nat => Ok []
                             | _ => Ok [[0; 1; 2]]
                             end;
  randn_like := fun t g => (emap (fun _ => 0) t, S g);
  tn_log_prob := fun _ _ value _ => value;
  IndexError := tt
|}.

Definition toy_policy : Graph_TanhGaussianPolicy := Graph_TanhGaussianPolicy_init 4 2 3 5 6 1.

Definition toy_graph : @Graph toy_framework := 0%nat.
Definition toy_empty_graph : @Graph toy_framework := 1%nat.

Definition toy_state (grad : bool) : St :=
  {| policy := toy_policy; gen := 0%nat; grad_enabled := grad; tape := [] |}.

(** ** log_std and std with the special float values (lines 88-90)

    The entries of a float tensor: finite values (as reals), the two
    infinities and NaN.  This covers the first three lines of forward,
    which compute mean, log_std and std from the module output. *)
Inductive Float := Fin (r : R) | PosInf | NegInf | NaN.

Definition FRow := list Float.
Definition FTensor := list FRow.

Definition femap (f : Float -> Float) (t : FTensor) : FTensor := map (map f) t.

(** torch.clamp(x, min, max): NaN is passed through, the infinities go to
    the bounds. *)
Definition clamp_f (lo hi : R) (x : Float) : Float :=
  match x with
  | Fin r => Fin (clamp lo hi r)
  | PosInf => Fin hi
  | NegInf => Fin lo
  | NaN => NaN
  end.

(** torch.exp *)
Definition exp_f (x : Float) : Float :=
  match x with
  | Fin r => Fin (exp r)
  | PosInf => PosInf
  | NegInf => Fin 0
  | NaN => NaN
  end.

(** torch.tensor_split(x, 2, dim=-1) *)
Definition split_row_f (row : FRow) : FRow * FRow :=
  (firstn (split_point (length row)) row, skipn (split_point (length row)) row).
Definition tensor_split2_f (t : FTensor) : FTensor * FTensor :=
  (map (fun r => fst (split_row_f r)) t, map (fun r => snd (split_row_f r)) t).

(** Lines 88-90 of forward: mean, log_std and std from the module output. *)
Definition forward_head_f (out : FTensor) : FTensor * FTensor * FTensor :=
  let '(mean, log_std) := tensor_split2_f out in
  let log_std := femap (clamp_f LOG_SIG_MIN LOG_SIG_MAX) log_std in
  let std := femap exp_f log_std in
  (mean, log_std, std).

(** A tensor of finite values as a float tensor. *)
Definition to_f (t : Tensor) : FTensor := map (map Fin) t.

(** * Properties *)

Section Properties.
Context {F : Framework}.

Ltac run_forward :=
  unfold forward, get_actions, get_action, no_grad, TanhNormal_sample, TanhNormal_rsample,
    randn_like_m, get_self, op, traced, ret, bind, lift, tensor_split2 in *;
  cbn [fst snd policy gen grad_enabled tape set_tape set_gen set_grad normal_mean normal_std] in *.

(** The operations recorded on top of tape [t] in tape [l]. *)
Ltac prefix_of l t :=
  lazymatch l with
  | t => constr:(@nil Op)
  | ?x :: ?l' => let r := prefix_of l' t in constr:(x :: r)
  end.

Ltac tape_prefix :=
  lazymatch goal with
  | |- exists r, ?l = r ++ ?t /\ _ => let r := prefix_of l t in exists r
  end.

(** forward, once the module has produced [out]: its result is
    [forward_result], the policy is untouched and the generator advances
    by one draw exactly when the branch samples. *)
Lemma forward_run (graph : Graph) (reparameterize deterministic return_log_prob : bool)
    (s : St) (out : Tensor) :
  module_apply (module (policy s)) graph = Ok out ->
  exists s',
    forward graph reparameterize deterministic return_log_prob s =
      (Ok (forward_result out (fst (randn_like (mean_of out) (gen s)))
             deterministic return_log_prob), s') /\
    policy s' = policy s /\
    grad_enabled s' = grad_enabled s /\
    gen s' = (if deterministic then gen s else snd (randn_like (mean_of out) (gen s))) /\
    (grad_enabled s = false -> tape s' = tape s).
Proof.
  intros Hm. destruct s as [p g ge tp]. run_forward. rewrite Hm.
  unfold mean_of, tensor_split2 in *; cbn [fst snd] in *.
  destruct (randn_like (map (fun r : Row => fst (split_row r)) out) g) as [eps g'] eqn:Hr.
  destruct ge, deterministic, return_log_prob, reparameterize;
    cbn [fst snd policy gen grad_enabled tape set_tape set_gen set_grad normal_mean normal_std];
    rewrite ?Hr; cbn [fst snd policy gen grad_enabled tape set_tape set_gen set_grad normal_mean normal_std];
    eexists; (split; [reflexivity | repeat split; intros; try discriminate; reflexivity]).
Qed.

(** When the module raises, forward raises the same exception and leaves
    the state as it was. *)
Lemma forward_err (graph : Graph) (reparameterize deterministic return_log_prob : bool)
    (s : St) (e : Exc) :
  module_apply (module (policy s)) graph = Err e ->
  forward graph reparameterize deterministic return_log_prob s = (Err e, s).
Proof.
  intros Hm. destruct s as [p g ge tp]. run_forward. rewrite Hm. reflexivity.
Qed.

Lemma forward_frame (graph : Graph) (reparameterize deterministic return_log_prob : bool)
    (s : St) :
  let s' := snd (forward graph reparameterize deterministic return_log_prob s) in
  policy s' = policy s /\ grad_enabled s' = grad_enabled s /\
  (grad_enabled s = false -> tape s' = tape s).
Proof.
  cbv zeta. destruct (module_apply (module (policy s)) graph) as [out | e] eqn:Hm.
  - destruct (forward_run graph reparameterize deterministic return_log_prob s out Hm)
      as (s' & -> & Hp & Hg & _ & Ht).
    cbn [snd]. auto.
  - rewrite (forward_err _ _ _ _ _ _ Hm). cbn [snd]. auto.
Qed.

Lemma get_actions_frame (graph : Graph) (deterministic : bool) (s : St) :
  let s' := snd (get_actions graph deterministic s) in
  policy s' = policy s /\ grad_enabled s' = grad_enabled s /\ tape s' = tape s.
Proof.
  cbv zeta. unfold get_actions, no_grad, bind, ret.
  destruct (forward_frame graph false deterministic false (set_grad false s)) as (Hp & Hg & Ht).
  destruct (forward graph false deterministic false (set_grad false s)) as [[o | e] s1];
    cbn [snd] in *; cbn [policy grad_enabled tape set_grad] in *;
    repeat split; auto.
Qed.

Lemma get_action_frame (graph : Graph) (deterministic : bool) (s : St) :
  let s' := snd (get_action graph deterministic s) in
  policy s' = policy s /\ grad_enabled s' = grad_enabled s /\ tape s' = tape s.
Proof.
  cbv zeta. unfold get_action, bind, lift, ret.
  destruct (get_actions_frame graph deterministic s) as (Hp & Hg & Ht).
  destruct (get_actions graph deterministic s) as [[acts | e] s1]; cbn [snd] in *;
    [ destruct (index_row0 acts) | ]; cbn [snd]; auto.
Qed.

Lemma split_point_double (n : nat) : split_point (2 * n) = n.
Proof.
  unfold split_point. rewrite (Nat.mul_comm 2 n), Nat.div_mul, Nat.Div0.mod_mul by lia. lia.
Qed.

Lemma split_row_double (n : nat) (row : Row) :
  length row = (2 * n)%nat -> split_row row = (firstn n row, skipn n row).
Proof.
  intros Hl. unfold split_row. rewrite Hl, split_point_double. reflexivity.
Qed.



Lemma emap_Forall (f : R -> R) (P : R -> Prop) (t : Tensor) :
  (forall x, P (f x)) -> Forall (Forall P) (emap f t).
Proof.
  intros HP. unfold emap. induction t as [| row t IH]; constructor; auto.
  induction row; constructor; auto.
Qed.

Lemma emap_emap (f g : R -> R) (t : Tensor) :
  emap f (emap g t) = emap (fun x => f (g x)) t.
Proof.
  unfold emap. rewrite map_map. apply map_ext. intros row. apply map_map.
Qed.

(** C1: with deterministic=True, forward returns action = tanh(mean), mean
    being the first half of the module output split along the last
    dimension; no random draw is made, and the action depends only on the
    graph and the policy (its network), whatever reparameterize,
    return_log_prob and the generator state are. *)
Theorem forward_deterministic_action (graph : Graph) (reparameterize return_log_prob : bool)
    (s : St) (out : Tensor) :
  module_apply (module (policy s)) graph = Ok out ->
  exists o s', forward graph reparameterize true return_log_prob s = (Ok o, s') /\
    out_action o = emap tanh (fst (tensor_split2 out)) /\ gen s' = gen s /\
    (forall (reparameterize' return_log_prob' : bool) (s2 : St), policy s2 = policy s ->
       exists o2 s2', forward graph reparameterize' true return_log_prob' s2 = (Ok o2, s2') /\
         out_action o2 = out_action o).
Proof.
  intros Hm.
  destruct (forward_run graph reparameterize true return_log_prob s out Hm)
    as (s' & Hf & _ & _ & Hg & _).
  exists (forward_result out (fst (randn_like (mean_of out) (gen s))) true return_log_prob), s'.
  split; [exact Hf |]. split; [reflexivity |]. split; [exact Hg |].
  intros r' lp' s2 Hp. rewrite <- Hp in Hm.
  destruct (forward_run graph r' true lp' s2 out Hm) as (s2' & Hf2 & _).
  do 2 eexists. split; [exact Hf2 | reflexivity].
Qed.

(** C3: __init__ builds the GraphTransformer with output dimension
    2 * action_dim; when the module output has rows of that length, forward
    takes mean and log_std (before clamping) as the two halves of each row,
    each of length action_dim. *)
Theorem init_module_output_halves
    (inner_node_dim inner_node_edges conv_iterations state_dim latent_dim action_dim : nat)
    (graph : Graph) (reparameterize deterministic return_log_prob : bool) (s : St)
    (out : Tensor) :
  policy s = Graph_TanhGaussianPolicy_init inner_node_dim inner_node_edges conv_iterations
               state_dim latent_dim action_dim ->
  module_apply (module (policy s)) graph = Ok out ->
  Forall (fun row => length row = (2 * action_dim)%nat) out ->
  module (policy s) = GraphTransformer [(STATE_IN, state_dim); (LATENT_IN, latent_dim)]
                        inner_node_dim inner_node_edges (2 * action_dim) conv_iterations /\
  exists o s', forward graph reparameterize deterministic return_log_prob s = (Ok o, s') /\
    out_mean o = map (firstn action_dim) out /\
    out_log_std o = emap (clamp LOG_SIG_MIN LOG_SIG_MAX) (map (skipn action_dim) out) /\
    Forall (fun row => length row = action_dim) (out_mean o) /\
    Forall (fun row => length row = action_dim) (map (skipn action_dim) out) /\
    zipWith (@app R) (out_mean o) (map (skipn action_dim) out) = out.
Proof.
  intros Hp Hm Hl. split; [rewrite Hp; reflexivity |].
  destruct (forward_run graph reparameterize deterministic return_log_prob s out Hm)
    as (s' & Hf & _).
  assert (Hsplit : map (fun r => fst (split_row r)) out = map (firstn action_dim) out /\
                   map (fun r => snd (split_row r)) out = map (skipn action_dim) out).
  { split; apply map_ext_in; intros row Hin; rewrite Forall_forall in Hl;
      rewrite (split_row_double action_dim row (Hl row Hin)); reflexivity. }
  destruct Hsplit as [H1 H2].
  do 2 eexists. split; [exact Hf |].
  assert (Hmean : out_mean (forward_result out (fst (randn_like (mean_of out) (gen s)))
                      deterministic return_log_prob) = map (firstn action_dim) out).
  { unfold forward_result. destruct deterministic, return_log_prob;
      cbn [out_mean]; unfold mean_of, tensor_split2; cbn [fst]; exact H1. }
  rewrite Hmean. split; [reflexivity |]. split.
  { unfold forward_result. destruct deterministic, return_log_prob;
      cbn [out_log_std]; unfold log_std_of, tensor_split2; cbn [snd]; rewrite H2; reflexivity. }
  clear Hf Hmean H1 H2 Hm.
  induction out as [| row out IH]; cbn [map zipWith]; [repeat split; constructor |].
  inversion Hl as [| ? ? Hrow Hrest]; subst.
  destruct (IH Hrest) as (IH1 & IH2 & IH3).
  repeat split; try constructor; auto.
  - rewrite length_firstn. lia.
  - rewrite length_skipn. lia.
  - rewrite firstn_skipn, IH3. reflexivity.
Qed.

(** C4: with deterministic=False, forward samples from
    TanhNormal(mean, std), std = exp(clamped log_std): the action is
    tanh(z) for z = mean + std * eps, eps the standard normal draws taken
    from the generator; it is what rsample returns when reparameterize
    holds and what sample returns otherwise, and only rsample puts the
    draw on the autograd tape. *)
Theorem forward_stochastic_action (graph : Graph) (reparameterize return_log_prob : bool)
    (s : St) (out : Tensor) :
  module_apply (module (policy s)) graph = Ok out ->
  exists o s', forward graph reparameterize false return_log_prob s = (Ok o, s') /\
    let d := {| normal_mean := out_mean o; normal_std := out_std o |} in
    let eps := fst (randn_like (out_mean o) (gen s)) in
    out_std o = emap exp (out_log_std o) /\
    out_action o = emap tanh (gaussian_draw d eps) /\
    fst (if reparameterize then TanhNormal_rsample d s else TanhNormal_sample d s) =
      Ok (out_action o, gaussian_draw d eps) /\
    gen s' = snd (randn_like (out_mean o) (gen s)) /\
    (grad_enabled s = true ->
       exists recorded, tape s' = recorded ++ tape s /\
         (In OpRSample recorded <-> reparameterize = true)).
Proof.
  intros Hm. destruct s as [p g ge tp]. run_forward. rewrite Hm.
  unfold mean_of, tensor_split2 in *; cbn [fst snd] in *.
  destruct (randn_like (map (fun r : Row => fst (split_row r)) out) g) as [eps g'] eqn:Hr.
  destruct ge, return_log_prob, reparameterize;
    cbn [fst snd policy gen grad_enabled tape set_tape set_gen set_grad normal_mean normal_std];
    rewrite ?Hr; cbn [fst snd policy gen grad_enabled tape set_tape set_gen set_grad normal_mean normal_std];
    do 2 eexists; (split; [reflexivity |]);
    cbn [out_mean out_std out_action out_log_std normal_mean normal_std];
    rewrite ?Hr; cbn [fst snd gen tape app];
    (repeat split; try reflexivity);
    try (intros; discriminate);
    intros _; cbn [tape set_tape set_gen set_grad];
    tape_prefix; (split; [reflexivity |]); cbn [In];
    split; intros H; try reflexivity; try discriminate; intuition discriminate.
Qed.

(** C5: MakeDeterministic(p) delegates: its get_action(observation) is
    p.get_action(observation, deterministic=True) and its
    get_actions(observations) is p.get_actions(observations,
    deterministic=True), for any stochastic policy p. *)
Theorem MakeDeterministic_delegates {S Obs A As : Type} (p : PolicyMethods S Obs A As)
    (observation : Obs) :
  MakeDeterministic_get_action (MakeDeterministic_init p) observation =
    pm_get_action p observation true /\
  MakeDeterministic_get_actions (MakeDeterministic_init p) observation =
    pm_get_actions p observation true.
Proof. split; reflexivity. Qed.

(** C7: expected_log_prob and mean_action_log_prob are always None;
    log_prob and pre_tanh_value are None unless deterministic=False and
    return_log_prob=True, where pre_tanh_value is the sampled pre-tanh
    value z and log_prob is TanhNormal(mean, std).log_prob(action, z)
    summed over the last dimension with keepdim=True. *)
Theorem forward_optional_outputs (graph : Graph)
    (reparameterize deterministic return_log_prob : bool) (s : St) (out : Tensor) :
  module_apply (module (policy s)) graph = Ok out ->
  exists o s', forward graph reparameterize deterministic return_log_prob s = (Ok o, s') /\
    out_expected_log_prob o = None /\ out_mean_action_log_prob o = None /\
    if (negb deterministic && return_log_prob)%bool then
      let d := {| normal_mean := out_mean o; normal_std := out_std o |} in
      exists pre, out_pre_tanh_value o = Some pre /\
        pre = gaussian_draw d (fst (randn_like (out_mean o) (gen s))) /\
        out_action o = emap tanh pre /\
        out_log_prob o = Some (sum_keepdim (TanhNormal_log_prob d (out_action o) pre))
    else out_log_prob o = None /\ out_pre_tanh_value o = None.
Proof.
  intros Hm.
  destruct (forward_run graph reparameterize deterministic return_log_prob s out Hm)
    as (s' & Hf & _).
  do 2 eexists. split; [exact Hf |].
  unfold forward_result. destruct deterministic, return_log_prob; cbn [negb andb];
    repeat split; try reflexivity.
  eexists. repeat split.
Qed.

(** C8: get_action(graph, deterministic) returns the first row of the
    array get_actions(graph, deterministic) with an empty info dictionary
    (raising numpy's IndexError when there is no row), and get_actions is
    np_ify of the action forward returns, run under torch.no_grad. *)
Theorem get_action_first_row (graph : Graph) (deterministic : bool) (s : St) :
  get_action graph deterministic s =
    (let (r, s') := get_actions graph deterministic s in
     (match r with
      | Ok actions =>
          match index_row0 actions with
          | Ok row => Ok (row, ([] : Info))
          | Err e => Err e
          end
      | Err e => Err e
      end, s')) /\
  get_actions graph deterministic s =
    (let (r, s') := forward graph false deterministic false (set_grad false s) in
     (match r with
      | Ok outputs => Ok (np_ify (out_action outputs))
      | Err e => Err e
      end, set_grad (grad_enabled s) s')).
Proof.
  split.
  - unfold get_action, bind, lift, ret.
    destruct (get_actions graph deterministic s) as [[actions | e] s'];
      [destruct (index_row0 actions) |]; reflexivity.
  - unfold get_actions, no_grad, bind, ret.
    destruct (forward graph false deterministic false (set_grad false s)) as [[o | e] s'];
      reflexivity.
Qed.

(** C9: forward, get_actions, get_action and the MakeDeterministic methods
    leave the policy object (its hyperparameters and its module) as it
    was; get_actions and get_action, run under no_grad, record nothing on
    the autograd tape and restore the gradient mode. *)
Theorem policy_calls_frame (graph : Graph)
    (reparameterize deterministic return_log_prob : bool) (s : St) :
  let w := MakeDeterministic_init Graph_TanhGaussianPolicy_methods in
  policy (snd (forward graph reparameterize deterministic return_log_prob s)) = policy s /\
  (policy (snd (get_actions graph deterministic s)) = policy s /\
   tape (snd (get_actions graph deterministic s)) = tape s /\
   grad_enabled (snd (get_actions graph deterministic s)) = grad_enabled s) /\
  (policy (snd (get_action graph deterministic s)) = policy s /\
   tape (snd (get_action graph deterministic s)) = tape s /\
   grad_enabled (snd (get_action graph deterministic s)) = grad_enabled s) /\
  (policy (snd (MakeDeterministic_get_action w graph s)) = policy s /\
   tape (snd (MakeDeterministic_get_action w graph s)) = tape s) /\
  (policy (snd (MakeDeterministic_get_actions w graph s)) = policy s /\
   tape (snd (MakeDeterministic_get_actions w graph s)) = tape s).
Proof.
  cbv zeta.
  destruct (forward_frame graph reparameterize deterministic return_log_prob s) as (Hf & _).
  destruct (get_actions_frame graph deterministic s) as (Hp1 & Hg1 & Ht1).
  destruct (get_action_frame graph deterministic s) as (Hp2 & Hg2 & Ht2).
  destruct (get_actions_frame graph true s) as (Hp3 & _ & Ht3).
  destruct (get_action_frame graph true s) as (Hp4 & _ & Ht4).
  unfold MakeDeterministic_get_action, MakeDeterministic_get_actions; cbn [stochastic_policy
    MakeDeterministic_init pm_get_action pm_get_actions Graph_TanhGaussianPolicy_methods].
  repeat split; assumption.
Qed.

(** C10: the policy raises nothing of its own.  forward raises exactly
    when the module raises, with its exception and the state untouched;
    get_actions raises only the module's exception; get_action and
    MakeDeterministic.get_action raise only that or, when the action array
    has no row, numpy's IndexError from actions[0, :]. *)
Theorem policy_errors_from_framework (graph : Graph)
    (reparameterize deterministic return_log_prob : bool) (s : St) :
  let w := MakeDeterministic_init Graph_TanhGaussianPolicy_methods in
  (forall e, module_apply (module (policy s)) graph = Err e ->
     forward graph reparameterize deterministic return_log_prob s = (Err e, s)) /\
  (forall out, module_apply (module (policy s)) graph = Ok out ->
     exists o s', forward graph reparameterize deterministic return_log_prob s = (Ok o, s')) /\
  (forall e, fst (get_actions graph deterministic s) = Err e ->
     module_apply (module (policy s)) graph = Err e) /\
  (forall e, fst (get_action graph deterministic s) = Err e ->
     module_apply (module (policy s)) graph = Err e \/
     (e = IndexError /\ fst (get_actions graph deterministic s) = Ok [])) /\
  (forall e, fst (MakeDeterministic_get_action w graph s) = Err e ->
     module_apply (module (policy s)) graph = Err e \/
     (e = IndexError /\ fst (MakeDeterministic_get_actions w graph s) = Ok [])).
Proof.
  cbv zeta.
  assert (Hga : forall d e, fst (get_actions graph d s) = Err e ->
                  module_apply (module (policy s)) graph = Err e).
  { intros d e. rewrite (proj2 (get_action_first_row graph d s)).
    destruct (module_apply (module (policy s)) graph) as [out | e'] eqn:Hm.
    - change (module (policy s)) with (module (policy (set_grad false s))) in Hm.
      destruct (forward_run graph false d false (set_grad false s) out Hm) as (s' & -> & _).
      discriminate.
    - change (module (policy s)) with (module (policy (set_grad false s))) in Hm.
      rewrite (forward_err graph false d false (set_grad false s) e' Hm). cbn [fst].
      congruence. }
  assert (Hgb : forall d e, fst (get_action graph d s) = Err e ->
                  module_apply (module (policy s)) graph = Err e \/
                  (e = IndexError /\ fst (get_actions graph d s) = Ok [])).
  { intros d e. rewrite (proj1 (get_action_first_row graph d s)).
    destruct (get_actions graph d s) as [[actions | e'] s'] eqn:Hacts; cbn [fst].
    - destruct actions as [| row rest]; cbn [index_row0]; [| discriminate].
      intros H. injection H as <-. right. split; reflexivity.
    - intros H. injection H as <-. left. apply (Hga d). rewrite Hacts. reflexivity. }
  split; [intros e Hm; apply forward_err; exact Hm |].
  split; [intros out Hm; destruct (forward_run graph reparameterize deterministic
            return_log_prob s out Hm) as (s' & Hf & _); eauto |].
  split; [apply Hga |]. split; [apply Hgb |].
  apply (Hgb true).
Qed.

(** ** Further properties of the policy *)

Lemma get_actions_state (graph : Graph) (deterministic : bool) (s : St) :
  snd (get_actions graph deterministic s) =
    set_grad (grad_enabled s) (snd (forward graph false deterministic false (set_grad false s))).
Proof.
  rewrite (proj2 (get_action_first_row graph deterministic s)).
  destruct (forward graph false deterministic false (set_grad false s)) as [[o | e] s'];
    reflexivity.
Qed.

Lemma get_action_state (graph : Graph) (deterministic : bool) (s : St) :
  snd (get_action graph deterministic s) = snd (get_actions graph deterministic s).
Proof.
  rewrite (proj1 (get_action_first_row graph deterministic s)).
  destruct (get_actions graph deterministic s) as [[acts | e] s']; reflexivity.
Qed.

Lemma forward_deterministic_gen (graph : Graph) (reparameterize return_log_prob : bool)
    (s : St) :
  gen (snd (forward graph reparameterize true return_log_prob s)) = gen s.
Proof.
  destruct (module_apply (module (policy s)) graph) as [out | e] eqn:Hm.
  - destruct (forward_run graph reparameterize true return_log_prob s out Hm)
      as (s' & -> & _ & _ & Hg & _). exact Hg.
  - rewrite (forward_err _ _ _ _ _ _ Hm). reflexivity.
Qed.

Lemma zipWith_length {A B C : Type} (f : A -> B -> C) (l1 : list A) (l2 : list B) :
  length (zipWith f l1 l2) = Nat.min (length l1) (length l2).
Proof.
  revert l2. induction l1 as [| a l1 IH]; intros [| b l2]; cbn; auto.
Qed.

Lemma clamp_in_range (x : R) :
  LOG_SIG_MIN <= x <= LOG_SIG_MAX -> clamp LOG_SIG_MIN LOG_SIG_MAX x = x.
Proof.
  intros [Hlo Hhi]. unfold clamp. rewrite Rmax_left by exact Hlo. apply Rmin_left. exact Hhi.
Qed.

Lemma emap_Forall_id (f : R -> R) (P : R -> Prop) (t : Tensor) :
  (forall x, P x -> f x = x) -> Forall (Forall P) t -> emap f t = t.
Proof.
  intros Hf Ht. unfold emap. induction Ht as [| row t Hrow Ht IH]; cbn; [reflexivity |].
  rewrite IH. f_equal. induction Hrow; cbn; [reflexivity |]. rewrite Hf by assumption.
  f_equal. assumption.
Qed.

(** With deterministic=True, get_actions, get_action and the
    MakeDeterministic methods draw nothing: the generator state is left as
    it was. *)
Theorem deterministic_calls_keep_generator (graph : Graph) (s : St) :
  let w := MakeDeterministic_init Graph_TanhGaussianPolicy_methods in
  gen (snd (get_actions graph true s)) = gen s /\
  gen (snd (get_action graph true s)) = gen s /\
  gen (snd (MakeDeterministic_get_action w graph s)) = gen s /\
  gen (snd (MakeDeterministic_get_actions w graph s)) = gen s.
Proof.
  cbv zeta. unfold MakeDeterministic_get_action, MakeDeterministic_get_actions.
  cbn [stochastic_policy MakeDeterministic_init pm_get_action pm_get_actions
       Graph_TanhGaussianPolicy_methods].
  rewrite get_action_state, get_actions_state. cbn [gen set_grad].
  rewrite forward_deterministic_gen. cbn [gen set_grad]. auto.
Qed.

(** With deterministic=False, get_actions and get_action take exactly one
    batch of standard normal draws, shaped like the mean, from the
    generator. *)
Theorem stochastic_calls_draw_once (graph : Graph) (s : St) (out : Tensor) :
  module_apply (module (policy s)) graph = Ok out ->
  gen (snd (get_actions graph false s)) = snd (randn_like (mean_of out) (gen s)) /\
  gen (snd (get_action graph false s)) = snd (randn_like (mean_of out) (gen s)).
Proof.
  intros Hm. change (module (policy s)) with (module (policy (set_grad false s))) in Hm.
  rewrite get_action_state, get_actions_state.
  destruct (forward_run graph false false false (set_grad false s) out Hm)
    as (s' & -> & _ & _ & Hg & _).
  cbn [snd gen set_grad] in *. rewrite Hg. auto.
Qed.

(** When the module returns no row, get_actions returns an empty array and
    get_action raises numpy's IndexError from actions[0, :]. *)
Theorem empty_batch_index_error (graph : Graph) (deterministic : bool) (s : St) :
  module_apply (module (policy s)) graph = Ok [] ->
  fst (get_actions graph deterministic s) = Ok [] /\
  fst (get_action graph deterministic s) = Err IndexError.
Proof.
  intros Hm.
  assert (Ha : fst (get_actions graph deterministic s) = Ok []).
  { rewrite (proj2 (get_action_first_row graph deterministic s)).
    change (module (policy s)) with (module (policy (set_grad false s))) in Hm.
    destruct (forward_run graph false deterministic false (set_grad false s) [] Hm)
      as (s' & -> & _).
    destruct deterministic; reflexivity. }
  split; [exact Ha |].
  rewrite (proj1 (get_action_first_row graph deterministic s)).
  destruct (get_actions graph deterministic s) as [r s']. cbn [fst] in *. subst r.
  reflexivity.
Qed.

(** With deterministic=False, reparameterize and return_log_prob change
    neither the sampled action nor mean, log_std and std: from the same
    state, every combination of the two flags yields the same values and
    the same generator state. *)
Theorem stochastic_flags_same_sample (graph : Graph) (s : St) (out : Tensor)
    (reparameterize return_log_prob reparameterize' return_log_prob' : bool) :
  module_apply (module (policy s)) graph = Ok out ->
  exists o o' s1 s2,
    forward graph reparameterize false return_log_prob s = (Ok o, s1) /\
    forward graph reparameterize' false return_log_prob' s = (Ok o', s2) /\
    out_action o = out_action o' /\ out_mean o = out_mean o' /\
    out_log_std o = out_log_std o' /\ out_std o = out_std o' /\ gen s1 = gen s2.
Proof.
  intros Hm.
  destruct (forward_run graph reparameterize false return_log_prob s out Hm)
    as (s1 & Hf1 & _ & _ & Hg1 & _).
  destruct (forward_run graph reparameterize' false return_log_prob' s out Hm)
    as (s2 & Hf2 & _ & _ & Hg2 & _).
  do 4 eexists. split; [exact Hf1 |]. split; [exact Hf2 |].
  rewrite Hg1, Hg2. unfold forward_result.
  destruct return_log_prob, return_log_prob'; repeat split.
Qed.

(** When the module output's first row has 2 * action_dim entries (and the
    normal draws are shaped like the mean), get_action succeeds and returns
    an action of action_dim entries with an empty info dictionary. *)
Theorem get_action_length (graph : Graph) (deterministic : bool) (s : St)
    (row : Row) (rest : Tensor) :
  module_apply (module (policy s)) graph = Ok (row :: rest) ->
  length row = (2 * action_dim (policy s))%nat ->
  map (@length R) (fst (randn_like (mean_of (row :: rest)) (gen s))) =
    map (@length R) (mean_of (row :: rest)) ->
  exists a s', get_action graph deterministic s = (Ok (a, ([] : Info)), s') /\
    length a = action_dim (policy s).
Proof.
  intros Hm Hl Heps.
  rewrite (proj1 (get_action_first_row graph deterministic s)).
  rewrite (proj2 (get_action_first_row graph deterministic s)).
  change (module (policy s)) with (module (policy (set_grad false s))) in Hm.
  destruct (forward_run graph false deterministic false (set_grad false s) (row :: rest) Hm)
    as (s' & -> & _).
  cbn [gen set_grad] in *.
  set (n := action_dim (policy s)) in *.
  assert (Hsplit : split_row row = (firstn n row, skipn n row))
    by (apply split_row_double; exact Hl).
  unfold forward_result. destruct deterministic.
  - cbn -[split_row]. rewrite Hsplit. cbn [fst].
    do 2 eexists. split; [reflexivity |].
    rewrite length_map, length_firstn. lia.
  - destruct (fst (randn_like (mean_of (row :: rest)) (gen s))) as [| e0 erest] eqn:He;
      [discriminate |].
    cbn [map] in Heps. injection Heps as He0 _.
    unfold mean_of, tensor_split2 in He0. cbn [fst map] in He0.
    unfold gaussian_draw, dist_of, std_of, log_std_of, mean_of, tensor_split2, ezip, emap.
    cbn -[split_row]. rewrite Hsplit in *. cbn [fst snd] in *.
    do 2 eexists. split; [reflexivity |].
    rewrite length_map, !zipWith_length, !length_map, He0, length_firstn, length_skipn.
    rewrite length_firstn, Hl, split_point_double. lia.
Qed.

(** When forward returns a log_prob, it has exactly one entry per row
    (the sum over the last dimension, kept as a dimension of size 1). *)
Theorem log_prob_keepdim (graph : Graph) (reparameterize : bool) (s : St) (out : Tensor) :
  module_apply (module (policy s)) graph = Ok out ->
  exists o s' lp, forward graph reparameterize false true s = (Ok o, s') /\
    out_log_prob o = Some lp /\ Forall (fun row => length row = 1%nat) lp.
Proof.
  intros Hm.
  destruct (forward_run graph reparameterize false true s out Hm) as (s' & Hf & _).
  do 3 eexists. split; [exact Hf |]. split; [reflexivity |].
  unfold sum_keepdim. apply Forall_forall. intros r Hr.
  apply in_map_iff in Hr. destruct Hr as (x & <- & _). reflexivity.
Qed.

(** Clamping leaves log_std alone when the module's log_std half already
    lies in [LOG_SIG_MIN, LOG_SIG_MAX]. *)
Theorem log_std_unclamped_in_range (graph : Graph)
    (reparameterize deterministic return_log_prob : bool) (s : St) (out : Tensor) :
  module_apply (module (policy s)) graph = Ok out ->
  Forall (Forall (fun x => LOG_SIG_MIN <= x <= LOG_SIG_MAX)) (snd (tensor_split2 out)) ->
  exists o s', forward graph reparameterize deterministic return_log_prob s = (Ok o, s') /\
    out_log_std o = snd (tensor_split2 out).
Proof.
  intros Hm Hin.
  destruct (forward_run graph reparameterize deterministic return_log_prob s out Hm)
    as (s' & Hf & _).
  do 2 eexists. split; [exact Hf |].
  assert (Hls : out_log_std (forward_result out (fst (randn_like (mean_of out) (gen s)))
                   deterministic return_log_prob) = log_std_of out)
    by (unfold forward_result; destruct deterministic, return_log_prob; reflexivity).
  rewrite Hls. unfold log_std_of. apply (emap_Forall_id _ _ _ clamp_in_range Hin).
Qed.

(** MakeDeterministic(policy).get_action(graph) returns tanh of the first
    half of the module's first output row, with an empty info dictionary,
    drawing nothing and recording nothing on the autograd tape. *)
Theorem MakeDeterministic_get_action_result (graph : Graph) (s : St)
    (row : Row) (rest : Tensor) :
  module_apply (module (policy s)) graph = Ok (row :: rest) ->
  exists s', MakeDeterministic_get_action (MakeDeterministic_init Graph_TanhGaussianPolicy_methods)
               graph s = (Ok (map tanh (fst (split_row row)), ([] : Info)), s') /\
    gen s' = gen s /\ tape s' = tape s /\ policy s' = policy s.
Proof.
  intros Hm.
  unfold MakeDeterministic_get_action.
  cbn [stochastic_policy MakeDeterministic_init pm_get_action Graph_TanhGaussianPolicy_methods].
  destruct (get_action_frame graph true s) as (Hp & _ & Ht).
  pose proof (deterministic_calls_keep_generator graph s) as (_ & Hg & _).
  rewrite (proj1 (get_action_first_row graph true s)) in *.
  rewrite (proj2 (get_action_first_row graph true s)) in *.
  change (module (policy s)) with (module (policy (set_grad false s))) in Hm.
  destruct (forward_run graph false true false (set_grad false s) (row :: rest) Hm)
    as (s' & Hf & _).
  rewrite Hf in *. cbn [snd] in *. eexists. split; [reflexivity |]. auto.
Qed.

(** get_actions, run under no_grad, returns the same action values (or
    raises the same exception) as forward called with gradient mode as it
    is. *)
Theorem get_actions_matches_forward (graph : Graph) (deterministic : bool) (s : St) :
  fst (get_actions graph deterministic s) =
    match fst (forward graph false deterministic false s) with
    | Ok o => Ok (out_action o)
    | Err e => Err e
    end.
Proof.
  rewrite (proj2 (get_action_first_row graph deterministic s)).
  destruct (module_apply (module (policy s)) graph) as [out | e] eqn:Hm.
  - destruct (forward_run graph false deterministic false s out Hm) as (s1 & -> & _).
    change (module (policy s)) with (module (policy (set_grad false s))) in Hm.
    destruct (forward_run graph false deterministic false (set_grad false s) out Hm)
      as (s2 & -> & _).
    reflexivity.
  - rewrite (forward_err _ _ _ _ _ _ Hm).
    change (module (policy s)) with (module (policy (set_grad false s))) in Hm.
    rewrite (forward_err _ _ _ _ _ _ Hm). reflexivity.
Qed.

(** ** log_std bounds with the special float values *)



(** On finite values, lines 88-90 over floats compute the mean, log_std
    and std that forward returns. *)
Lemma forward_head_f_finite (graph : Graph)
    (reparameterize deterministic return_log_prob : bool) (s : St) (out : Tensor) :
  module_apply (module (policy s)) graph = Ok out ->
  exists o s', forward graph reparameterize deterministic return_log_prob s = (Ok o, s') /\
    forward_head_f (to_f out) = (to_f (out_mean o), to_f (out_log_std o), to_f (out_std o)).
Proof.
  intros Hm.
  destruct (forward_run graph reparameterize deterministic return_log_prob s out Hm)
    as (s' & Hf & _).
  do 2 eexists. split; [exact Hf |].
  assert (Hfields :
    out_mean (forward_result out (fst (randn_like (mean_of out) (gen s)))
                deterministic return_log_prob) = mean_of out /\
    out_log_std (forward_result out (fst (randn_like (mean_of out) (gen s)))
                deterministic return_log_prob) = log_std_of out /\
    out_std (forward_result out (fst (randn_like (mean_of out) (gen s)))
                deterministic return_log_prob) = std_of out)
    by (unfold forward_result; destruct deterministic, return_log_prob; repeat split).
  destruct Hfields as (-> & -> & ->).
  unfold forward_head_f, tensor_split2_f, std_of, log_std_of, mean_of, tensor_split2,
    to_f, femap, emap.
  cbn [fst snd]. rewrite !map_map.
  f_equal; [f_equal |]; apply map_ext; intros row;
    unfold split_row_f, split_row; rewrite length_map; cbn [fst snd];
    rewrite ?firstn_map, ?skipn_map, ?map_map; reflexivity.
Qed.



End Properties.

(** * Witnesses: the hypotheses of the claims hold on the toy framework *)

Lemma forward_deterministic_action_witness :
  module_apply (module (policy (toy_state true))) toy_graph = Ok [[0; 1]] /\
  exists o s', forward toy_graph false true false (toy_state true) = (Ok o, s') /\
    out_action o = emap tanh (fst (tensor_split2 [[0; 1]])) /\ gen s' = gen (toy_state true) /\
    (forall (reparameterize' return_log_prob' : bool) (s2 : St),
       policy s2 = policy (toy_state true) ->
       exists o2 s2', forward toy_graph reparameterize' true return_log_prob' s2 = (Ok o2, s2') /\
         out_action o2 = out_action o).
Proof.
  split; [reflexivity |].
  apply (forward_deterministic_action toy_graph false false (toy_state true) [[0; 1]]).
  reflexivity.
Defined.

Lemma init_module_output_halves_witness :
  policy (toy_state true) = Graph_TanhGaussianPolicy_init 4 2 3 5 6 1 /\
  module_apply (module (policy (toy_state true))) toy_graph = Ok [[0; 1]] /\
  Forall (fun row => length row = (2 * 1)%nat) [[0; 1]] /\
  (module (policy (toy_state true)) =
     GraphTransformer [(STATE_IN, 5%nat); (LATENT_IN, 6%nat)] 4 2 (2 * 1) 3 /\
   exists o s', forward toy_graph true false true (toy_state true) = (Ok o, s') /\
     out_mean o = map (firstn 1) [[0; 1]] /\
     out_log_std o = emap (clamp LOG_SIG_MIN LOG_SIG_MAX) (map (skipn 1) [[0; 1]]) /\
     Forall (fun row => length row = 1%nat) (out_mean o) /\
     Forall (fun row => length row = 1%nat) (map (skipn 1) [[0; 1]]) /\
     zipWith (@app R) (out_mean o) (map (skipn 1) [[0; 1]]) = [[0; 1]]).
Proof.
  split; [reflexivity |]. split; [reflexivity |]. split; [repeat constructor |].
  apply (init_module_output_halves 4 2 3 5 6 1 toy_graph true false true (toy_state true) [[0; 1]]).
  - reflexivity.
  - reflexivity.
  - repeat constructor.
Defined.

Lemma forward_stochastic_action_witness :
  module_apply (module (policy (toy_state true))) toy_graph = Ok [[0; 1]] /\
  exists o s', forward toy_graph true false true (toy_state true) = (Ok o, s') /\
    let d := {| normal_mean := out_mean o; normal_std := out_std o |} in
    let eps := fst (randn_like (out_mean o) (gen (toy_state true))) in
    out_std o = emap exp (out_log_std o) /\
    out_action o = emap tanh (gaussian_draw d eps) /\
    fst (TanhNormal_rsample d (toy_state true)) = Ok (out_action o, gaussian_draw d eps) /\
    gen s' = snd (randn_like (out_mean o) (gen (toy_state true))) /\
    (grad_enabled (toy_state true) = true ->
       exists recorded, tape s' = recorded ++ tape (toy_state true) /\
         (In OpRSample recorded <-> true = true)).
Proof.
  split; [reflexivity |].
  apply (forward_stochastic_action toy_graph true true (toy_state true) [[0; 1]]).
  reflexivity.
Defined.

Lemma forward_optional_outputs_witness :
  module_apply (module (policy (toy_state true))) toy_graph = Ok [[0; 1]] /\
  exists o s', forward toy_graph false false true (toy_state true) = (Ok o, s') /\
    out_expected_log_prob o = None /\ out_mean_action_log_prob o = None /\
    let d := {| normal_mean := out_mean o; normal_std := out_std o |} in
    exists pre, out_pre_tanh_value o = Some pre /\
      pre = gaussian_draw d (fst (randn_like (out_mean o) (gen (toy_state true)))) /\
      out_action o = emap tanh pre /\
      out_log_prob o = Some (sum_keepdim (TanhNormal_log_prob d (out_action o) pre)).
Proof.
  split; [reflexivity |].
  apply (forward_optional_outputs toy_graph false false true (toy_state true) [[0; 1]]).
  reflexivity.
Defined.

Lemma stochastic_calls_draw_once_witness :
  module_apply (module (policy (toy_state true))) toy_graph = Ok [[0; 1]] /\
  gen (snd (get_actions toy_graph false (toy_state true))) =
    snd (randn_like (mean_of [[0; 1]]) (gen (toy_state true))) /\
  gen (snd (get_action toy_graph false (toy_state true))) =
    snd (randn_like (mean_of [[0; 1]]) (gen (toy_state true))).
Proof.
  split; [reflexivity |].
  apply (stochastic_calls_draw_once toy_graph (toy_state true) [[0; 1]]). reflexivity.
Defined.

Lemma empty_batch_index_error_witness :
  module_apply (module (policy (toy_state true))) toy_empty_graph = Ok [] /\
  fst (get_actions toy_empty_graph false (toy_state true)) = Ok [] /\
  fst (get_action toy_empty_graph false (toy_state true)) = Err IndexError.
Proof.
  split; [reflexivity |].
  apply (empty_batch_index_error toy_empty_graph false (toy_state true)). reflexivity.
Defined.

Lemma stochastic_flags_same_sample_witness :
  module_apply (module (policy (toy_state true))) toy_graph = Ok [[0; 1]] /\
  exists o o' s1 s2,
    forward toy_graph true false true (toy_state true) = (Ok o, s1) /\
    forward toy_graph false false false (toy_state true) = (Ok o', s2) /\
    out_action o = out_action o' /\ out_mean o = out_mean o' /\
    out_log_std o = out_log_std o' /\ out_std o = out_std o' /\ gen s1 = gen s2.
Proof.
  split; [reflexivity |].
  apply (stochastic_flags_same_sample toy_graph (toy_state true) [[0; 1]] true true false false).
  reflexivity.
Defined.

Lemma get_action_length_witness :
  module_apply (module (policy (toy_state true))) toy_graph = Ok [[0; 1]] /\
  length [0; 1] = (2 * action_dim (policy (toy_state true)))%nat /\
  map (@length R) (fst (randn_like (mean_of [[0; 1]]) (gen (toy_state true)))) =
    map (@length R) (mean_of [[0; 1]]) /\
  exists a s', get_action toy_graph false (toy_state true) = (Ok (a, ([] : Info)), s') /\
    length a = action_dim (policy (toy_state true)).
Proof.
  split; [reflexivity |]. split; [reflexivity |]. split; [reflexivity |].
  apply (get_action_length toy_graph false (toy_state true) [0; 1] []).
  - reflexivity.
  - reflexivity.
  - reflexivity.
Defined.

Lemma log_prob_keepdim_witness :
  module_apply (module (policy (toy_state false))) toy_graph = Ok [[0; 1]] /\
  exists o s' lp, forward toy_graph true false true (toy_state false) = (Ok o, s') /\
    out_log_prob o = Some lp /\ Forall (fun row => length row = 1%nat) lp.
Proof.
  split; [reflexivity |].
  apply (log_prob_keepdim toy_graph true (toy_state false) [[0; 1]]). reflexivity.
Defined.

Lemma log_std_unclamped_in_range_witness :
  module_apply (module (policy (toy_state true))) toy_graph = Ok [[0; 1]] /\
  Forall (Forall (fun x => LOG_SIG_MIN <= x <= LOG_SIG_MAX)) (snd (tensor_split2 [[0; 1]])) /\
  exists o s', forward toy_graph false true false (toy_state true) = (Ok o, s') /\
    out_log_std o = snd (tensor_split2 [[0; 1]]).
Proof.
  assert (Hin : Forall (Forall (fun x => LOG_SIG_MIN <= x <= LOG_SIG_MAX))
                  (snd (tensor_split2 [[0; 1]]))).
  { repeat constructor; unfold LOG_SIG_MIN, LOG_SIG_MAX; lra. }
  split; [reflexivity |]. split; [exact Hin |].
  apply (log_std_unclamped_in_range toy_graph false true false (toy_state true) [[0; 1]]).
  - reflexivity.
  - exact Hin.
Defined.

Lemma MakeDeterministic_get_action_result_witness :
  module_apply (module (policy (toy_state true))) toy_graph = Ok [[0; 1]] /\
  exists s', MakeDeterministic_get_action (MakeDeterministic_init Graph_TanhGaussianPolicy_methods)
               toy_graph (toy_state true) = (Ok (map tanh (fst (split_row [0; 1])), ([] : Info)), s') /\
    gen s' = gen (toy_state true) /\ tape s' = tape (toy_state true) /\
    policy s' = policy (toy_state true).
Proof.
  split; [reflexivity |].
  apply (MakeDeterministic_get_action_result toy_graph (toy_state true) [0; 1] []). reflexivity.
Defined.

